(** * Fluxus: the conduit composition core

    A shallow embedding of [fluxus.core._chained_base_],
    [fluxus.core.producer._producer_base] and
    [fluxus.core.transformer._transformer_base].

    Conventions of the embedding.
    - A Python object is given by what its methods return: a conduit is a
      record of its graph queries, a class with abstract properties is a
      function of the objects those properties return.
    - A generator is given by the finite list of the items it yields when
      it is drained; [yield from e] appends the items of [e].
    - Iteration that consumes shared state (an iterator object handed
      around) runs in a state monad over the store of iterator objects.
    - A dunder method that can return [NotImplemented] or raise returns a
      [result]. *)

From stdpp Require Import base option list strings gmap.

(** ** Graph queries of conduits *)

(** Serial conduits are compared by identity; a name stands for the object. *)
Definition SerialConduit : Type := string.

Definition Connection : Type := SerialConduit * SerialConduit.

(** The part of [fluxus.core.Conduit] that a chained conduit calls on its
    children. *)
Module Conduit.
Record t : Type := new {
  _has_passthrough : bool;
  get_final_conduits : list SerialConduit;
  get_connections : list SerialConduit -> list Connection
}.
End Conduit.

Module _ChainedConduit.
(** [source] and [processor] are abstract properties of the class. *)
Record t : Type := new {
  source : Conduit.t;
  processor : Conduit.t
}.

Definition is_chained (self : t) : bool := true.

Definition get_final_conduits (self : t) : list SerialConduit :=
  (if Conduit._has_passthrough (processor self)
   then Conduit.get_final_conduits (source self)
   else [])
  ++ Conduit.get_final_conduits (processor self).

Definition get_connections (self : t) (ingoing : list SerialConduit)
  : list Connection :=
  let source := source self in
  let processor := processor self in
  (* We first yield all connections from within the source *)
  Conduit.get_connections source ingoing
  ++
  (* We get the list of all ingoing conduits of the processor *)
  let processor_ingoing := Conduit.get_final_conduits source in
  (* If the source includes a pass-through, we add the original ingoing
     conduits *)
  let processor_ingoing :=
    if Conduit._has_passthrough source
    then processor_ingoing ++ ingoing
    else processor_ingoing in
  (* Then we get all connections of the processor, including ingoing
     connections *)
  Conduit.get_connections processor processor_ingoing.

(** Chained conduits are never isolated: [yield from ()]. *)
Definition get_isolated_conduits (self : t) : list SerialConduit := [].

(** A chained conduit seen as a child of another one.
    [_ChainedConduit] does not define [_has_passthrough]; the concrete
    subclass supplies it. *)
Definition as_conduit (has_passthrough : bool) (self : t) : Conduit.t :=
  Conduit.new has_passthrough
              (get_final_conduits self)
              (get_connections self).
End _ChainedConduit.

(** Modelled from the spec: the serial leaf conduit of [fluxus.core],
    which is not among the modules embedded here. A leaf stage is its own
    single final conduit, holds no passthrough, and is fed by one edge
    from every ingoing conduit. *)
Module AtomicConduit.
Definition new (name : SerialConduit) : Conduit.t :=
  Conduit.new false [name] (fun ingoing => (fun c => (c, name)) <$> ingoing).
End AtomicConduit.

(** Modelled from the spec: the graph queries of a concurrent group
    ([fluxus.core.ConcurrentConduit]) and of [Passthrough], which are not
    among the modules embedded here. A group is an ordered sequence of
    members, enumerated in insertion order by [get_final_conduits] and
    [get_connections]; a [Passthrough] member is a marker, not a conduit,
    and the group contains a passthrough as soon as a member does. *)
Module ConcurrentConduit.
Inductive member : Type :=
| Stage (conduit : Conduit.t)
| Passthrough.

Definition member_has_passthrough (m : member) : bool :=
  match m with
  | Stage conduit => Conduit._has_passthrough conduit
  | Passthrough => true
  end.

Definition member_final_conduits (m : member) : list SerialConduit :=
  match m with
  | Stage conduit => Conduit.get_final_conduits conduit
  | Passthrough => []
  end.

Definition member_connections (ingoing : list SerialConduit) (m : member)
  : list Connection :=
  match m with
  | Stage conduit => Conduit.get_connections conduit ingoing
  | Passthrough => []
  end.

Definition new (members : list member) : Conduit.t :=
  Conduit.new (existsb member_has_passthrough members)
              (members ≫= member_final_conduits)
              (fun ingoing => members ≫= member_connections ingoing).
End ConcurrentConduit.

(** ** Iteration *)

(** The store of iterator objects: what each one has still to yield. An
    iterator is used up by the loop that drains it, whoever holds it. *)
Module Iter.
Definition M (S X : Type) : Type :=
  gmap nat (list S) -> X * gmap nat (list S).

#[global] Instance M_ret {S} : MRet (M S) := fun X x store => (x, store).

#[global] Instance M_bind {S} : MBind (M S) :=
  fun X Y f c store => let '(x, store') := c store in f x store'.

(** An iterable is given by what a [for] loop over it sees. *)
Abbreviation Iterable S A := (M S (list A)) (only parsing).

(** A list or tuple: every [iter] starts afresh. *)
Definition Collection {S A} (xs : list A) : Iterable S A := mret xs.

(** An iterator or generator object: [iter] returns the object itself,
    and the loop leaves it exhausted. *)
Definition Iterator {S} (ref : nat) : Iterable S S :=
  fun store => (default [] (store !! ref), <[ref := []]> store).
End Iter.

(** An asynchronous iterator: between two items it may suspend. *)
Inductive AsyncIterator (A : Type) : Type :=
| AStop
| AYield (item : A) (rest : AsyncIterator A)
| AAwait (rest : AsyncIterator A).
Arguments AStop {A}.
Arguments AYield {A} item rest.
Arguments AAwait {A} rest.

(** The items an [async for] loop sees. *)
Fixpoint async_items {A} (it : AsyncIterator A) : list A :=
  match it with
  | AStop => []
  | AYield item rest => item :: async_items rest
  | AAwait rest => async_items rest
  end.

(** The number of times the iterator suspends before it stops. *)
Fixpoint async_suspensions {A} (it : AsyncIterator A) : nat :=
  match it with
  | AStop => 0
  | AYield _ rest => async_suspensions rest
  | AAwait rest => S (async_suspensions rest)
  end.

(** The asynchronous generator body [for x in xs: yield x]. *)
Fixpoint async_replay {A} (xs : list A) : AsyncIterator A :=
  match xs with
  | [] => AStop
  | x :: xs' => AYield x (async_replay xs')
  end.

(** ** Producers *)

Module SerialProducer.
(** [produce] is abstract; [S] is the item type of the iterator store. *)
Record t (S A : Type) : Type := new {
  produce : Iter.M S (list A)
}.
Arguments new {S A} produce.
Arguments produce {S A} self : rename.

(** [yield self] *)
Definition iter_concurrent_producers {S A} (self : t S A) : list (t S A) :=
  [self].

(** [for product in self.produce(): yield product] *)
Definition aproduce {S A} (self : t S A) : Iter.M S (AsyncIterator A) :=
  products ← produce self;
  mret (async_replay products).

(** [BaseProducer.__iter__]: [return self.produce()] *)
Definition __iter__ {S A} (self : t S A) : Iter.Iterable S A :=
  produce self.
End SerialProducer.

Module ConcurrentProducer.
(** [iter_concurrent_producers] is abstract: the serial producers of the
    group, in enumeration order. *)
Record t (S A : Type) : Type := new {
  iter_concurrent_producers : list (SerialProducer.t S A)
}.
Arguments new {S A} iter_concurrent_producers.
Arguments iter_concurrent_producers {S A} self : rename.

(** [for producer in producers: yield from producer] *)
Fixpoint produce_from {S A} (producers : list (SerialProducer.t S A))
  : Iter.M S (list A) :=
  match producers with
  | [] => mret []
  | producer :: rest =>
      products ← SerialProducer.__iter__ producer;
      others ← produce_from rest;
      mret (products ++ others)
  end.

Definition produce {S A} (self : t S A) : Iter.M S (list A) :=
  produce_from (iter_concurrent_producers self).

(** [BaseProducer.__iter__]: [return self.produce()] *)
Definition __iter__ {S A} (self : t S A) : Iter.Iterable S A :=
  produce self.
End ConcurrentProducer.

(** ** Transformers *)

Module SerialTransformer.
(** [transform] is abstract: the per-item expansion. *)
Record t (A B : Type) : Type := new {
  transform : A -> list B
}.
Arguments new {A B} transform.
Arguments transform {A B} self source_product : rename.

(** [for tx in self.transform(source_product): yield tx] *)
Definition atransform {A B} (self : t A B) (source_product : A)
  : AsyncIterator B :=
  async_replay (transform self source_product).

(** The loop of [process] over the items of its input:
    [for product in input: yield from self.transform(product)] *)
Fixpoint process_loop {A B} (self : t A B) (input : list A) : list B :=
  match input with
  | [] => []
  | product :: rest => transform self product ++ process_loop self rest
  end.

Definition process {S A B} (self : t A B) (input : Iter.Iterable S A)
  : Iter.M S (list B) :=
  products ← input;
  mret (process_loop self products).
End SerialTransformer.

(** Modelled from the spec: the chained producer [source >> transformer]
    of [fluxus.core.producer._chained_], which is not among the modules
    embedded here. Its items flow from the producer through the
    transformer. *)
Module _ChainedProducer.
Definition new {S A B}
  (producer : SerialProducer.t S A) (transformer : SerialTransformer.t A B)
  : SerialProducer.t S B :=
  SerialProducer.new
    (SerialTransformer.process transformer (SerialProducer.__iter__ producer)).
End _ChainedProducer.

(** Modelled from the spec: [fluxus.simple.SimpleProducer], which is not
    among the modules embedded here. The producer that wraps the input of
    a concurrent group holds it as a materialized, multiply-iterable
    buffer, so every call of [produce] iterates over all of it. *)
Module SimpleProducer.
Definition __init__ {S A} (products : Iter.Iterable S A)
  : Iter.M S (SerialProducer.t S A) :=
  buffer ← products;
  mret (SerialProducer.new (Iter.Collection buffer)).
End SimpleProducer.

(** For comparison only: a wrapper that keeps the iterable it is given
    and iterates over it on every call of [produce], which is what the
    spec rules out for the input of a concurrent group. *)
Module UnbufferedProducer.
Definition __init__ {S A} (products : Iter.Iterable S A)
  : Iter.M S (SerialProducer.t S A) :=
  mret (SerialProducer.new products).
End UnbufferedProducer.

Module ConcurrentTransformer.
Inductive member (A : Type) : Type :=
| Transformer (transformer : SerialTransformer.t A A)
| Passthrough.
Arguments Transformer {A} transformer.
Arguments Passthrough {A}.

(** The members of the group, in construction order. *)
Record t (A : Type) : Type := new {
  members : list (member A)
}.
Arguments new {A} members.
Arguments members {A} self : rename.

(** [SerialTransformer.__rrshift__] on a serial producer:
    [return _ChainedProducer(producer=other, transformer=self)] *)
Definition serial___rrshift__ {S A}
  (self : SerialTransformer.t A A) (other : SerialProducer.t S A)
  : SerialProducer.t S A :=
  _ChainedProducer.new other self.

(** Modelled from the spec: [iter_concurrent_producers] of the group,
    defined by [SimpleConcurrentTransformer], which is not among the
    modules embedded here. For each member, a transformer yields
    [source >> member] and a passthrough yields [source] unchanged. *)
Definition iter_concurrent_producers {S A}
  (self : t A) (source : SerialProducer.t S A)
  : list (SerialProducer.t S A) :=
  (fun m =>
     match m with
     | Transformer transformer => serial___rrshift__ transformer source
     | Passthrough => source
     end) <$> members self.

(** Modelled from the spec: [_ChainedConcurrentTransformedProducer],
    which is not among the modules embedded here; it is the concurrent
    producer of the fanned-out product streams.
    [BaseTransformer.__rrshift__] returns it for a serial producer:
    [_ChainedConcurrentTransformedProducer(source=other, transformer=self)]. *)
Definition __rrshift__ {S A} (self : t A) (other : SerialProducer.t S A)
  : ConcurrentProducer.t S A :=
  ConcurrentProducer.new (iter_concurrent_producers self other).

(** [return iter(SimpleProducer[self.input_type](input) >> self)], for
    a given class of the wrapping producer. *)
Definition process_with {S A}
  (wrap : Iter.Iterable S A -> Iter.M S (SerialProducer.t S A))
  (self : t A) (input : Iter.Iterable S A) : Iter.M S (list A) :=
  producer ← wrap input;
  ConcurrentProducer.__iter__ (__rrshift__ self producer).

Definition process {S A} (self : t A) (input : Iter.Iterable S A)
  : Iter.M S (list A) :=
  process_with SimpleProducer.__init__ self input.

(** What one branch makes of the complete input. *)
Definition branch_output {A} (input : list A) (m : member A) : list A :=
  match m with
  | Transformer transformer =>
      SerialTransformer.process_loop transformer input
  | Passthrough => input
  end.
End ConcurrentTransformer.

(** ** The grouping operator [&] *)

(** The type-lattice functions of [pytools.typing], over type tags [ty];
    the two common-type functions take the tuple of the types. *)
Class TypeLattice (ty : Type) : Type := {
  get_common_generic_base : list ty -> ty;
  get_common_generic_subclass : list ty -> ty;
  issubclass_generic : ty -> ty -> bool
}.

Inductive exception : Type :=
| TypeError.

(** The outcome of a binary special method. *)
Inductive result (A : Type) : Type :=
| Return (value : A)
| NotImplemented
| Raise (e : exception).
Arguments Return {A} value.
Arguments NotImplemented {A}.
Arguments Raise {A} e.

(** Python values as the operator methods inspect them: the class tested
    by [isinstance], and the type attributes read afterwards. *)
Module object.
Record producer (ty : Type) : Type := new_producer {
  producer_name : string;
  producer_product_type : ty
}.
Arguments new_producer {ty} _ _.
Arguments producer_name {ty} _.
Arguments producer_product_type {ty} _.

Record transformer (ty : Type) : Type := new_transformer {
  transformer_name : string;
  transformer_input_type : ty;
  transformer_product_type : ty
}.
Arguments new_transformer {ty} _ _ _.
Arguments transformer_name {ty} _.
Arguments transformer_input_type {ty} _.
Arguments transformer_product_type {ty} _.

Inductive t (ty : Type) : Type :=
| BaseProducer (p : producer ty)
| BaseTransformer (tr : transformer ty)
| Passthrough
| Other (repr : string).
Arguments BaseProducer {ty} p.
Arguments BaseTransformer {ty} tr.
Arguments Passthrough {ty}.
Arguments Other {ty} repr.

Definition isinstance_BaseProducer {ty} (o : t ty) : bool :=
  match o with BaseProducer _ => true | _ => false end.

Definition isinstance_BaseTransformer {ty} (o : t ty) : bool :=
  match o with BaseTransformer _ => true | _ => false end.

Definition isinstance_Passthrough {ty} (o : t ty) : bool :=
  match o with Passthrough => true | _ => false end.
End object.

(** The call [SimpleConcurrentProducer[product_type](self, other)], kept
    as it is made: the subscript is the declared product type of the new
    group, the arguments are its members. *)
Module SimpleConcurrentProducer.
Record t (ty : Type) : Type := new {
  product_type : ty;
  args : list (object.t ty)
}.
Arguments new {ty} product_type args.
Arguments product_type {ty} _.
Arguments args {ty} _.
End SimpleConcurrentProducer.

(** The call [SimpleConcurrentTransformer[input_type, product_type](...)]. *)
Module SimpleConcurrentTransformer.
Record t (ty : Type) : Type := new {
  input_type : ty;
  product_type : ty;
  args : list (object.t ty)
}.
Arguments new {ty} input_type product_type args.
Arguments input_type {ty} _.
Arguments product_type {ty} _.
Arguments args {ty} _.
End SimpleConcurrentTransformer.

Module BaseProducer.
Definition __and__ {ty} `{TypeLattice ty}
  (self : object.producer ty) (other : object.t ty)
  : result (SimpleConcurrentProducer.t ty) :=
  match other with
  | object.BaseProducer other_producer =>
      Return
        (SimpleConcurrentProducer.new
           (get_common_generic_base
              [object.producer_product_type self;
               object.producer_product_type other_producer])
           [object.BaseProducer self; other])
  | _ => NotImplemented
  end.
End BaseProducer.

Module BaseTransformer.
(** The argument of [_validate_concurrent_passthrough]:
    [BaseTransformer[Any, Any] | Passthrough]. *)
Inductive conduit (ty : Type) : Type :=
| a_transformer (tr : object.transformer ty)
| a_passthrough.
Arguments a_transformer {ty} tr.
Arguments a_passthrough {ty}.

Definition _validate_concurrent_passthrough {ty} `{TypeLattice ty}
  (conduit : conduit ty) : result unit :=
  match conduit with
  | a_passthrough => Return tt
  | a_transformer tr =>
      if issubclass_generic (object.transformer_input_type tr)
                            (object.transformer_product_type tr)
      then Return tt
      else Raise TypeError
  end.

(** Sequencing of a call that may raise. *)
Definition and_then {A B} (r : result A) (k : A -> result B) : result B :=
  match r with
  | Return value => k value
  | NotImplemented => NotImplemented
  | Raise e => Raise e
  end.

Definition __and__ {ty} `{TypeLattice ty}
  (self : object.transformer ty) (other : object.t ty)
  : result (SimpleConcurrentTransformer.t ty) :=
  match other with
  (* if isinstance(other, Passthrough) *)
  | object.Passthrough =>
      and_then (_validate_concurrent_passthrough (a_transformer self))
        (fun _ =>
           let input_type := object.transformer_input_type self in
           let product_type := object.transformer_product_type self in
           Return
             (SimpleConcurrentTransformer.new input_type product_type
                [object.BaseTransformer self; other]))
  (* else: other is a BaseTransformer *)
  | object.BaseTransformer other_transformer =>
      let input_type :=
        get_common_generic_subclass
          [object.transformer_input_type self;
           object.transformer_input_type other_transformer] in
      let product_type :=
        get_common_generic_base
          [object.transformer_product_type self;
           object.transformer_product_type other_transformer] in
      Return
        (SimpleConcurrentTransformer.new input_type product_type
           [object.BaseTransformer self; other])
  (* elif not isinstance(other, BaseTransformer) *)
  | _ => NotImplemented
  end.

Definition __rand__ {ty} `{TypeLattice ty}
  (self : object.transformer ty) (other : object.t ty)
  : result (SimpleConcurrentTransformer.t ty) :=
  match other with
  | object.Passthrough =>
      and_then (_validate_concurrent_passthrough (a_transformer self))
        (fun _ =>
           Return
             (SimpleConcurrentTransformer.new
                (object.transformer_input_type self)
                (object.transformer_product_type self)
                [other; object.BaseTransformer self]))
  | _ => NotImplemented
  end.
End BaseTransformer.

(** ** Reference readings and sample objects *)

(** Each member's synchronous sequence, the members run one after the
    other in enumeration order. *)
Fixpoint member_sequences {S A} (producers : list (SerialProducer.t S A))
  : Iter.M S (list (list A)) :=
  match producers with
  | [] => mret []
  | producer :: rest =>
      products ← SerialProducer.produce producer;
      others ← member_sequences rest;
      mret (products :: others)
  end.

(** A leaf producer that emits the same items on every call. *)
Definition producer_emitting {S A} (items : list A) : SerialProducer.t S A :=
  SerialProducer.new (Iter.Collection items).

(** A three-point type lattice: [int] and [str] below [object]. *)
Inductive sample_type : Type :=
| ty_int
| ty_str
| ty_object.

Definition sample_type_eqb (a b : sample_type) : bool :=
  match a, b with
  | ty_int, ty_int | ty_str, ty_str | ty_object, ty_object => true
  | _, _ => false
  end.

Definition sample_issubclass (a b : sample_type) : bool :=
  sample_type_eqb a b || sample_type_eqb b ty_object.

Definition sample_common_base (types : list sample_type) : sample_type :=
  match types with
  | [] => ty_object
  | a :: rest => if forallb (sample_type_eqb a) rest then a else ty_object
  end.

Definition sample_common_subclass (types : list sample_type) : sample_type :=
  match filter (fun a => negb (sample_type_eqb a ty_object)) types with
  | [] => ty_object
  | a :: _ => a
  end.

#[local] Instance sample_lattice : TypeLattice sample_type := {
  get_common_generic_base := sample_common_base;
  get_common_generic_subclass := sample_common_subclass;
  issubclass_generic := sample_issubclass
}.

(** A parser from [str] to [int], and a normaliser from [str] to [str]. *)
Definition sample_parser : object.transformer sample_type :=
  object.new_transformer "parse" ty_str ty_int.

Definition sample_normaliser : object.transformer sample_type :=
  object.new_transformer "normalise" ty_str ty_str.

Definition sample_source : object.producer sample_type :=
  object.new_producer "numbers" ty_int.

(** ** Pipelines of chained conduits *)

(** The left-nested chain [source >> p1 >> ... >> pn]. Every chained
    conduit on the way is given the [_has_passthrough] its class reports,
    listed beside its processor. *)
Fixpoint chain_all (source : Conduit.t) (stages : list (bool * Conduit.t))
  : Conduit.t :=
  match stages with
  | [] => source
  | (has_passthrough, processor) :: rest =>
      chain_all
        (_ChainedConduit.as_conduit has_passthrough
           (_ChainedConduit.new source processor))
        rest
  end.

(** The final conduits carried along a sequence of processors: a
    processor holding a passthrough keeps those that reach it. *)
Fixpoint finals_through (finals : list SerialConduit)
  (stages : list (bool * Conduit.t)) : list SerialConduit :=
  match stages with
  | [] => finals
  | (_, processor) :: rest =>
      finals_through
        ((if Conduit._has_passthrough processor then finals else [])
         ++ Conduit.get_final_conduits processor)
        rest
  end.

(** The edges into a sequence of processors, each one fed by the final
    conduits that reach it. *)
Fixpoint edges_through (finals : list SerialConduit)
  (stages : list (bool * Conduit.t)) : list Connection :=
  match stages with
  | [] => []
  | (_, processor) :: rest =>
      Conduit.get_connections processor finals
      ++ edges_through
           ((if Conduit._has_passthrough processor then finals else [])
            ++ Conduit.get_final_conduits processor)
           rest
  end.

(** The edges of a linear pipeline: every stage is fed by the final
    conduits of the stage before it. *)
Fixpoint linear_edges (previous : Conduit.t) (processors : list Conduit.t)
  : list Connection :=
  match processors with
  | [] => []
  | processor :: rest =>
      Conduit.get_connections processor
        (Conduit.get_final_conduits previous)
      ++ linear_edges processor rest
  end.

(** The part of [fluxus.core.SerialSource] that a serial chained conduit
    reads from its source. *)
Module SerialSource.
Record t : Type := new {
  chained_conduits : list SerialConduit;
  final_conduit : SerialConduit
}.
End SerialSource.

Module _SerialChainedConduit.
(** [source] is an abstract property; [final_conduit] is inherited and
    defined by the concrete subclass. *)
Record t : Type := new {
  source : SerialSource.t;
  final_conduit : SerialConduit
}.

(** [yield from self.source.chained_conduits]
    [yield self.final_conduit] *)
Definition chained_conduits (self : t) : list SerialConduit :=
  SerialSource.chained_conduits (source self) ++ [final_conduit self].

(** A serial chained conduit seen as the source of another one. *)
Definition as_source (self : t) : SerialSource.t :=
  SerialSource.new (chained_conduits self) (final_conduit self).
End _SerialChainedConduit.

(** The serial chain obtained by chaining, one after the other, stages
    with the given final conduits onto a source. *)
Fixpoint chain_serial (source : SerialSource.t) (finals : list SerialConduit)
  : SerialSource.t :=
  match finals with
  | [] => source
  | final :: rest =>
      chain_serial
        (_SerialChainedConduit.as_source
           (_SerialChainedConduit.new source final))
        rest
  end.

(** ** The chaining operator [>>] *)

(** Python values as the [>>] methods inspect them: the classes tested by
    [isinstance]. A group producer is a [BaseProducer] that is not a
    [SerialProducer], a group transformer a [BaseTransformer] that is not
    a [SerialTransformer]. *)
Module pyobject.
Inductive t : Type :=
| SerialProducer (name : string)
| GroupProducer (name : string)
| SerialTransformer (name : string)
| GroupTransformer (name : string)
| Consumer (name : string)
| Other (repr : string).

Definition isinstance_SerialProducer (o : t) : bool :=
  match o with SerialProducer _ => true | _ => false end.

Definition isinstance_BaseProducer (o : t) : bool :=
  match o with SerialProducer _ | GroupProducer _ => true | _ => false end.

Definition isinstance_SerialTransformer (o : t) : bool :=
  match o with SerialTransformer _ => true | _ => false end.

Definition isinstance_BaseTransformer (o : t) : bool :=
  match o with
  | SerialTransformer _ | GroupTransformer _ => true
  | _ => false
  end.

Definition isinstance_Consumer (o : t) : bool :=
  match o with Consumer _ => true | _ => false end.
End pyobject.

(** The constructor calls of the [>>] methods, kept as they are made. *)
Module chained.
Inductive t : Type :=
| _ProducerGroupFlow (producer consumer : pyobject.t)
| _ProducerFlow (producer consumer : pyobject.t)
| _ChainedConcurrentTransformer (first second : pyobject.t)
| _ChainedTransformer (first second : pyobject.t)
| _ChainedConcurrentTransformedProducer (source transformer : pyobject.t)
| _ChainedConcurrentProducer (source transformer : pyobject.t)
| _ChainedProducer (producer transformer : pyobject.t).
End chained.

Module Chaining.
Definition BaseProducer___rshift__ (self other : pyobject.t)
  : result chained.t :=
  if pyobject.isinstance_Consumer other
  then Return (chained._ProducerGroupFlow self other)
  else NotImplemented.

Definition SerialProducer___rshift__ (self other : pyobject.t)
  : result chained.t :=
  if pyobject.isinstance_Consumer other
  then Return (chained._ProducerFlow self other)
  else NotImplemented.

Definition BaseTransformer___rshift__ (self other : pyobject.t)
  : result chained.t :=
  if pyobject.isinstance_BaseTransformer other
  then Return (chained._ChainedConcurrentTransformer self other)
  else NotImplemented.

Definition BaseTransformer___rrshift__ (self other : pyobject.t)
  : result chained.t :=
  if pyobject.isinstance_SerialProducer other
  then Return (chained._ChainedConcurrentTransformedProducer other self)
  else if pyobject.isinstance_BaseProducer other
  then Return (chained._ChainedConcurrentProducer other self)
  else NotImplemented.

(** [super()] is [BaseTransformer]: the serial base classes listed before
    it define no [>>] of their own. *)
Definition SerialTransformer___rshift__ (self other : pyobject.t)
  : result chained.t :=
  if pyobject.isinstance_SerialTransformer other
  then Return (chained._ChainedTransformer self other)
  else BaseTransformer___rshift__ self other.

Definition SerialTransformer___rrshift__ (self other : pyobject.t)
  : result chained.t :=
  if pyobject.isinstance_SerialProducer other
  then Return (chained._ChainedProducer other self)
  else BaseTransformer___rrshift__ self other.

(** The method that [type(self)] resolves for [>>]; [None] where the
    class is not one of those embedded here. *)
Definition __rshift__ (self other : pyobject.t)
  : option (result chained.t) :=
  match self with
  | pyobject.SerialProducer _ => Some (SerialProducer___rshift__ self other)
  | pyobject.GroupProducer _ => Some (BaseProducer___rshift__ self other)
  | pyobject.SerialTransformer _ =>
      Some (SerialTransformer___rshift__ self other)
  | pyobject.GroupTransformer _ =>
      Some (BaseTransformer___rshift__ self other)
  | pyobject.Consumer _ | pyobject.Other _ => None
  end.

(** The reflected method; the producer classes define none here. *)
Definition __rrshift__ (self other : pyobject.t)
  : option (result chained.t) :=
  match self with
  | pyobject.SerialTransformer _ =>
      Some (SerialTransformer___rrshift__ self other)
  | pyobject.GroupTransformer _ =>
      Some (BaseTransformer___rrshift__ self other)
  | _ => None
  end.

(** The expression [lhs >> rhs]: the method of the left operand, then,
    when it returns [NotImplemented], the reflected method of the right
    operand, and [TypeError] when that returns [NotImplemented] too. *)
Definition rshift (lhs rhs : pyobject.t) : option (result chained.t) :=
  match __rshift__ lhs rhs with
  | None => None
  | Some NotImplemented =>
      match __rrshift__ rhs lhs with
      | None => None
      | Some NotImplemented => Some (Raise TypeError)
      | Some outcome => Some outcome
      end
  | Some outcome => Some outcome
  end.
End Chaining.

(** * Properties *)

(** ** Graph queries of a chained conduit *)

(** The finals of a two-member group of a stage and a passthrough are the
    finals of the stage, and the group holds a passthrough. *)
Lemma group_with_passthrough (T : Conduit.t) :
  let group :=
    ConcurrentConduit.new
      [ConcurrentConduit.Stage T; ConcurrentConduit.Passthrough] in
  Conduit._has_passthrough group = true
  /\ Conduit.get_final_conduits group = Conduit.get_final_conduits T.
Proof.
  simpl. split.
  - apply orb_true_r.
  - apply app_nil_r.
Qed.

(** C1. The final conduits of a chained conduit are the source's finals,
    yielded first exactly when the processor holds a passthrough, and
    then, in every case, the processor's finals. For a source with the
    single final [s] and a stage with the single final [t], chaining the
    source to the group of the stage and a passthrough yields [s; t]. *)
Theorem chained_final_conduits (self : _ChainedConduit.t) :
  let S := _ChainedConduit.source self in
  let P := _ChainedConduit.processor self in
  (Conduit._has_passthrough P = true ->
   _ChainedConduit.get_final_conduits self
   = Conduit.get_final_conduits S ++ Conduit.get_final_conduits P)
  /\ (Conduit._has_passthrough P = false ->
      _ChainedConduit.get_final_conduits self = Conduit.get_final_conduits P)
  /\ (forall (T : Conduit.t) (s t : SerialConduit),
        P = ConcurrentConduit.new
              [ConcurrentConduit.Stage T; ConcurrentConduit.Passthrough] ->
        Conduit.get_final_conduits S = [s] ->
        Conduit.get_final_conduits T = [t] ->
        _ChainedConduit.get_final_conduits self = [s; t]).
Proof.
  destruct self as [S P]. unfold _ChainedConduit.get_final_conduits. simpl.
  split; [|split].
  - intros ->. reflexivity.
  - intros ->. reflexivity.
  - intros T s t -> HS HT.
    destruct (group_with_passthrough T) as [Hp Hf].
    rewrite Hp, Hf, HS, HT. reflexivity.
Qed.

Lemma chained_final_conduits_witness :
  _ChainedConduit.get_final_conduits
    (_ChainedConduit.new
       (AtomicConduit.new "S")
       (ConcurrentConduit.new
          [ConcurrentConduit.Stage (AtomicConduit.new "T");
           ConcurrentConduit.Passthrough]))
  = ["S"; "T"]
  /\ _ChainedConduit.get_final_conduits
       (_ChainedConduit.new (AtomicConduit.new "S") (AtomicConduit.new "T"))
     = ["T"].
Proof.
  split.
  - apply (proj2 (proj2 (chained_final_conduits
                           (_ChainedConduit.new (AtomicConduit.new "S") _)))
             (AtomicConduit.new "T") "S" "T");
      reflexivity.
  - apply (proj1 (proj2 (chained_final_conduits
                           (_ChainedConduit.new (AtomicConduit.new "S")
                                                (AtomicConduit.new "T"))))).
    reflexivity.
Defined.

(** C3. The connections of a chained conduit are the source's connections
    for the caller's ingoing conduits, followed by the processor's
    connections for [processor_ingoing]: the source's finals, extended
    with the caller's ingoing conduits exactly when the source holds a
    passthrough. *)
Theorem chained_connections
  (self : _ChainedConduit.t) (ingoing : list SerialConduit) :
  let S := _ChainedConduit.source self in
  let P := _ChainedConduit.processor self in
  (Conduit._has_passthrough S = true ->
   _ChainedConduit.get_connections self ingoing
   = Conduit.get_connections S ingoing
     ++ Conduit.get_connections P (Conduit.get_final_conduits S ++ ingoing))
  /\ (Conduit._has_passthrough S = false ->
      _ChainedConduit.get_connections self ingoing
      = Conduit.get_connections S ingoing
        ++ Conduit.get_connections P (Conduit.get_final_conduits S)).
Proof.
  destruct self as [S P]. unfold _ChainedConduit.get_connections. simpl.
  split; intros ->; reflexivity.
Qed.

Lemma chained_connections_witness :
  _ChainedConduit.get_connections
    (_ChainedConduit.new
       (ConcurrentConduit.new
          [ConcurrentConduit.Stage (AtomicConduit.new "a");
           ConcurrentConduit.Passthrough])
       (AtomicConduit.new "b"))
    ["in"]
  = [("in", "a"); ("a", "b"); ("in", "b")]
  /\ _ChainedConduit.get_connections
       (_ChainedConduit.new (AtomicConduit.new "a") (AtomicConduit.new "b"))
       ["in"]
     = [("in", "a"); ("a", "b")].
Proof.
  split.
  - apply (proj1 (chained_connections
                    (_ChainedConduit.new
                       (ConcurrentConduit.new
                          [ConcurrentConduit.Stage (AtomicConduit.new "a");
                           ConcurrentConduit.Passthrough])
                       (AtomicConduit.new "b"))
                    ["in"])).
    reflexivity.
  - apply (proj2 (chained_connections
                    (_ChainedConduit.new (AtomicConduit.new "a")
                                         (AtomicConduit.new "b"))
                    ["in"])).
    reflexivity.
Defined.

(** C9. A chained conduit has no isolated conduits, whatever its source
    and its processor are. *)
Theorem chained_never_isolated (source processor : Conduit.t) :
  _ChainedConduit.get_isolated_conduits
    (_ChainedConduit.new source processor) = [].
Proof. reflexivity. Qed.

(** The chain [a >> b >> c] of three leaves, fed by [src]: its edges in
    the order they are yielded, and its single final conduit. *)
Example nested_chain_graph :
  let inner :=
    _ChainedConduit.new (AtomicConduit.new "a") (AtomicConduit.new "b") in
  let outer :=
    _ChainedConduit.new (_ChainedConduit.as_conduit false inner)
                        (AtomicConduit.new "c") in
  _ChainedConduit.get_connections outer ["src"]
  = [("src", "a"); ("a", "b"); ("b", "c")]
  /\ _ChainedConduit.get_final_conduits outer = ["c"].
Proof. split; reflexivity. Qed.

(** ** Running the iteration monad *)

Lemma run_bind {S X Y} (c : Iter.M S X) (f : X -> Iter.M S Y)
  (store : gmap nat (list S)) :
  (c ≫= f) store = f (c store).1 (c store).2.
Proof.
  unfold mbind, Iter.M_bind. destruct (c store) as [x store']. reflexivity.
Qed.

Lemma run_ret {S X} (x : X) (store : gmap nat (list S)) :
  (mret x : Iter.M S X) store = (x, store).
Proof. reflexivity. Qed.

(** Runs the binds and returns of a computation applied to a store. *)
Ltac run_monad :=
  repeat first [rewrite run_bind | rewrite run_ret | progress cbn [fst snd]].

(** A one-shot iterator is empty once a loop has drained it. *)
Lemma iterator_drained {S} (ref : nat) (store : gmap nat (list S)) :
  (Iter.Iterator ref ((Iter.Iterator ref store).2)).1 = [].
Proof.
  unfold Iter.Iterator. simpl. rewrite lookup_insert_eq. reflexivity.
Qed.

(** ** Producers *)

Lemma produce_from_sequences {S A} (producers : list (SerialProducer.t S A))
  (store : gmap nat (list S)) :
  ConcurrentProducer.produce_from producers store
  = (concat (member_sequences producers store).1,
     (member_sequences producers store).2).
Proof.
  revert store.
  induction producers as [|producer rest IH]; intros store.
  - reflexivity.
  - cbn [ConcurrentProducer.produce_from member_sequences].
    unfold SerialProducer.__iter__.
    run_monad. rewrite IH. reflexivity.
Qed.

Lemma member_sequences_restartable {S A}
  (producers : list (SerialProducer.t S A)) (sequences : list (list A))
  (store : gmap nat (list S)) :
  Forall2 (fun producer items =>
             forall store', SerialProducer.produce producer store'
                            = (items, store'))
          producers sequences ->
  member_sequences producers store = (sequences, store).
Proof.
  induction 1 as [|producer items rest others Hp _ IH].
  - reflexivity.
  - cbn [member_sequences].
    run_monad. rewrite Hp. cbn [fst snd].
    rewrite IH. reflexivity.
Qed.

(** C5. The synchronous products of a concurrent producer are the
    concatenation of its members' sequences, branch by branch in
    enumeration order; when each member emits a fixed sequence, it is the
    concatenation of these sequences, so that members emitting [1, 2] and
    [3, 4] give [1, 2, 3, 4]. *)
Theorem concurrent_produce_concatenates {S A}
  (self : ConcurrentProducer.t S A) (store : gmap nat (list S)) :
  let members := ConcurrentProducer.iter_concurrent_producers self in
  ConcurrentProducer.produce self store
  = (concat (member_sequences members store).1,
     (member_sequences members store).2)
  /\ (forall sequences : list (list A),
        Forall2 (fun producer items =>
                   forall store', SerialProducer.produce producer store'
                                  = (items, store'))
                members sequences ->
        ConcurrentProducer.produce self store = (concat sequences, store)).
Proof.
  simpl. unfold ConcurrentProducer.produce. split.
  - apply produce_from_sequences.
  - intros sequences H.
    rewrite produce_from_sequences.
    rewrite (member_sequences_restartable _ _ _ H). reflexivity.
Qed.

Lemma concurrent_produce_concatenates_witness :
  ConcurrentProducer.produce
    (ConcurrentProducer.new [producer_emitting [1; 2];
                             producer_emitting [3; 4]])
    (∅ : gmap nat (list nat))
  = ([1; 2; 3; 4], ∅).
Proof.
  apply (proj2 (concurrent_produce_concatenates
                  (ConcurrentProducer.new [producer_emitting [1; 2];
                                           producer_emitting [3; 4]])
                  ∅)
           [[1; 2]; [3; 4]]).
  repeat constructor.
Defined.

(** ** Transformers *)

Lemma process_loop_flatten {A B} (self : SerialTransformer.t A B)
  (input : list A) :
  SerialTransformer.process_loop self input
  = input ≫= SerialTransformer.transform self.
Proof.
  induction input as [|product rest IH]; [reflexivity|].
  cbn [SerialTransformer.process_loop]. rewrite IH. reflexivity.
Qed.

Lemma process_loop_app {A B} (self : SerialTransformer.t A B)
  (before after : list A) :
  SerialTransformer.process_loop self (before ++ after)
  = SerialTransformer.process_loop self before
    ++ SerialTransformer.process_loop self after.
Proof.
  induction before as [|product rest IH]; [reflexivity|].
  cbn [SerialTransformer.process_loop app]. rewrite IH.
  apply app_assoc.
Qed.

(** C6. [process] yields the flattening of [transform] over the upstream
    items: all outputs of an item come after those of the items before it
    and before those of the items after it, in the order [transform]
    yields them; mapping each [x] to [x, x] over [a, b] yields
    [a, a, b, b]. *)
Theorem serial_process_flattens {S A B}
  (self : SerialTransformer.t A B) (input : Iter.Iterable S A)
  (store : gmap nat (list S)) :
  SerialTransformer.process self input store
  = ((input store).1 ≫= SerialTransformer.transform self, (input store).2)
  /\ (forall (before : list A) (item : A) (after : list A),
        SerialTransformer.process self
          (Iter.Collection (before ++ item :: after)) store
        = (SerialTransformer.process_loop self before
           ++ SerialTransformer.transform self item
           ++ SerialTransformer.process_loop self after,
           store))
  /\ (forall a b : A,
        SerialTransformer.process
          (SerialTransformer.new (fun x => [x; x]))
          (Iter.Collection [a; b]) store
        = ([a; a; b; b], store)).
Proof.
  unfold SerialTransformer.process. split; [|split].
  - run_monad. rewrite process_loop_flatten. reflexivity.
  - intros before item after. unfold Iter.Collection. run_monad.
    rewrite process_loop_app. reflexivity.
  - intros a b. reflexivity.
Qed.

Lemma async_items_replay {A} (xs : list A) :
  async_items (async_replay xs) = xs.
Proof.
  induction xs as [|x xs IH]; [reflexivity|].
  cbn [async_replay async_items]. rewrite IH. reflexivity.
Qed.

(** The replay of a synchronous sequence never suspends. *)
Lemma async_replay_never_suspends {A} (xs : list A) :
  async_suspensions (async_replay xs) = 0.
Proof. induction xs as [|x xs IH]; [reflexivity|exact IH]. Qed.

(** C7. The default asynchronous variants replay the synchronous ones:
    [aproduce] yields the items of [produce], and [atransform] the items
    of [transform], in the same order. *)
Theorem default_async_replays_sync {S A B}
  (producer : SerialProducer.t S A) (transformer : SerialTransformer.t A B)
  (source_product : A) (store : gmap nat (list S)) :
  async_items (SerialProducer.aproduce producer store).1
  = (SerialProducer.produce producer store).1
  /\ (SerialProducer.aproduce producer store).2
     = (SerialProducer.produce producer store).2
  /\ async_items (SerialTransformer.atransform transformer source_product)
     = SerialTransformer.transform transformer source_product.
Proof.
  unfold SerialProducer.aproduce, SerialTransformer.atransform.
  run_monad. cbn [fst snd]. rewrite !async_items_replay. auto.
Qed.

(** ** Fan-out of a concurrent transformer *)

(** Over a source that emits the same items on every call, each branch
    of the group works on all of them. *)
Lemma fan_out_over_restartable_source {S A}
  (self : ConcurrentTransformer.t A) (source : SerialProducer.t S A)
  (items : list A) (store : gmap nat (list S)) :
  (forall store', SerialProducer.produce source store' = (items, store')) ->
  ConcurrentProducer.produce_from
    (ConcurrentTransformer.iter_concurrent_producers self source) store
  = (ConcurrentTransformer.members self
       ≫= ConcurrentTransformer.branch_output items,
     store).
Proof.
  intros Hsource. unfold ConcurrentTransformer.iter_concurrent_producers.
  induction (ConcurrentTransformer.members self) as [|m rest IH].
  - reflexivity.
  - cbn [fmap list_fmap ConcurrentProducer.produce_from].
    assert (Hbranch :
      SerialProducer.__iter__
        match m with
        | ConcurrentTransformer.Transformer transformer =>
            ConcurrentTransformer.serial___rrshift__ transformer source
        | ConcurrentTransformer.Passthrough => source
        end store
      = (ConcurrentTransformer.branch_output items m, store)).
    { destruct m as [transformer|]; cbn.
      - unfold SerialTransformer.process, SerialProducer.__iter__.
        run_monad. rewrite Hsource. reflexivity.
      - unfold SerialProducer.__iter__. apply Hsource. }
    run_monad. rewrite Hbranch. cbn [fst snd].
    rewrite IH. reflexivity.
Qed.

(** C2. [process] of a concurrent transformer buffers its input before
    fanning out: every branch receives and transforms the complete input,
    also when the input is a one-shot iterator, which the call leaves
    drained. With two branches over a one-shot iterator, the output is
    the first branch's output on all items followed by the second's. *)
Theorem concurrent_process_feeds_every_branch {A}
  (self : ConcurrentTransformer.t A) (input : Iter.Iterable A A)
  (store : gmap nat (list A)) :
  ConcurrentTransformer.process self input store
  = (ConcurrentTransformer.members self
       ≫= ConcurrentTransformer.branch_output (input store).1,
     (input store).2)
  /\ (forall (first second : SerialTransformer.t A A) (ref : nat),
        let items := default [] (store !! ref) in
        ConcurrentTransformer.process
          (ConcurrentTransformer.new
             [ConcurrentTransformer.Transformer first;
              ConcurrentTransformer.Transformer second])
          (Iter.Iterator ref) store
        = (SerialTransformer.process_loop first items
           ++ SerialTransformer.process_loop second items,
           <[ref := []]> store)).
Proof.
  assert (Hgeneral :
    forall (group : ConcurrentTransformer.t A) (it : Iter.Iterable A A),
      ConcurrentTransformer.process group it store
      = (ConcurrentTransformer.members group
           ≫= ConcurrentTransformer.branch_output (it store).1,
         (it store).2)).
  { intros group it.
    unfold ConcurrentTransformer.process, ConcurrentTransformer.process_with,
      SimpleProducer.__init__, ConcurrentProducer.__iter__,
      ConcurrentProducer.produce, ConcurrentTransformer.__rrshift__.
    run_monad. cbn [fst snd ConcurrentProducer.iter_concurrent_producers].
    apply fan_out_over_restartable_source.
    intros store'. reflexivity. }
  split.
  - apply Hgeneral.
  - intros first second ref items. rewrite Hgeneral.
    cbn. rewrite app_nil_r. reflexivity.
Qed.

(** The buffer is what feeds every branch: with a wrapper that keeps a
    one-shot iterator, the first branch drains it and the second branch
    receives nothing. *)
Lemma unbuffered_wrapper_starves_second_branch {A}
  (first second : SerialTransformer.t A A) (ref : nat)
  (store : gmap nat (list A)) :
  ConcurrentTransformer.process_with UnbufferedProducer.__init__
    (ConcurrentTransformer.new
       [ConcurrentTransformer.Transformer first;
        ConcurrentTransformer.Transformer second])
    (Iter.Iterator ref) store
  = (SerialTransformer.process_loop first (default [] (store !! ref)),
     <[ref := []]> store).
Proof.
  unfold ConcurrentTransformer.process_with, UnbufferedProducer.__init__,
    ConcurrentProducer.__iter__, ConcurrentProducer.produce,
    ConcurrentTransformer.__rrshift__,
    ConcurrentTransformer.iter_concurrent_producers.
  run_monad.
  cbn [fst snd ConcurrentProducer.iter_concurrent_producers
       ConcurrentTransformer.members fmap list_fmap
       ConcurrentProducer.produce_from].
  unfold ConcurrentTransformer.serial___rrshift__, _ChainedProducer.new,
    SerialProducer.__iter__, SerialTransformer.process.
  cbn [SerialProducer.produce]. run_monad.
  rewrite iterator_drained.
  unfold Iter.Iterator. cbn [fst snd SerialTransformer.process_loop].
  rewrite insert_insert_eq, !app_nil_r. reflexivity.
Qed.

(** ** The grouping operator [&] *)

Section grouping.
Context {ty : Type} `{TypeLattice ty}.

(** Grouping with a passthrough: the outcome is decided by the subtype
    test alone, and the group keeps the transformer's own types. *)
Lemma and_passthrough (T : object.transformer ty) :
  BaseTransformer.__and__ T object.Passthrough
  = if issubclass_generic (object.transformer_input_type T)
                          (object.transformer_product_type T)
    then Return
           (SimpleConcurrentTransformer.new
              (object.transformer_input_type T)
              (object.transformer_product_type T)
              [object.BaseTransformer T; object.Passthrough])
    else Raise TypeError.
Proof.
  unfold BaseTransformer.__and__,
    BaseTransformer._validate_concurrent_passthrough.
  destruct (issubclass_generic _ _); reflexivity.
Qed.

Lemma rand_passthrough (T : object.transformer ty) :
  BaseTransformer.__rand__ T object.Passthrough
  = if issubclass_generic (object.transformer_input_type T)
                          (object.transformer_product_type T)
    then Return
           (SimpleConcurrentTransformer.new
              (object.transformer_input_type T)
              (object.transformer_product_type T)
              [object.Passthrough; object.BaseTransformer T])
    else Raise TypeError.
Proof.
  unfold BaseTransformer.__rand__,
    BaseTransformer._validate_concurrent_passthrough.
  destruct (issubclass_generic _ _); reflexivity.
Qed.

(** C4. Grouping a transformer [T] with a passthrough, in either operand
    order, raises [TypeError] exactly when [T.input_type] is not a subtype
    of [T.product_type]; the call then returns no group, and it returns
    the group of the two operands otherwise. *)
Theorem passthrough_group_type_contract (T : object.transformer ty) :
  let valid :=
    issubclass_generic (object.transformer_input_type T)
                       (object.transformer_product_type T) in
  (BaseTransformer.__and__ T object.Passthrough = Raise TypeError
   <-> valid = false)
  /\ (BaseTransformer.__rand__ T object.Passthrough = Raise TypeError
      <-> valid = false)
  /\ (valid = false ->
      forall group,
        BaseTransformer.__and__ T object.Passthrough <> Return group
        /\ BaseTransformer.__rand__ T object.Passthrough <> Return group)
  /\ (valid = true ->
      BaseTransformer.__and__ T object.Passthrough
      = Return (SimpleConcurrentTransformer.new
                  (object.transformer_input_type T)
                  (object.transformer_product_type T)
                  [object.BaseTransformer T; object.Passthrough])
      /\ BaseTransformer.__rand__ T object.Passthrough
         = Return (SimpleConcurrentTransformer.new
                     (object.transformer_input_type T)
                     (object.transformer_product_type T)
                     [object.Passthrough; object.BaseTransformer T])).
Proof.
  cbn zeta. rewrite and_passthrough, rand_passthrough.
  destruct (issubclass_generic _ _); repeat split; congruence.
Qed.

(** C8. The group of two producers has the common generic base of their
    product types as its product type; the group of two transformers has
    the common generic base of their product types as its product type
    and the common generic subclass of their input types as its input
    type. *)
Theorem group_types_from_lattice :
  (forall p1 p2 : object.producer ty,
     exists group,
       BaseProducer.__and__ p1 (object.BaseProducer p2) = Return group
       /\ SimpleConcurrentProducer.product_type group
          = get_common_generic_base
              [object.producer_product_type p1;
               object.producer_product_type p2]
       /\ SimpleConcurrentProducer.args group
          = [object.BaseProducer p1; object.BaseProducer p2])
  /\ (forall t1 t2 : object.transformer ty,
        exists group,
          BaseTransformer.__and__ t1 (object.BaseTransformer t2)
          = Return group
          /\ SimpleConcurrentTransformer.product_type group
             = get_common_generic_base
                 [object.transformer_product_type t1;
                  object.transformer_product_type t2]
          /\ SimpleConcurrentTransformer.input_type group
             = get_common_generic_subclass
                 [object.transformer_input_type t1;
                  object.transformer_input_type t2]
          /\ SimpleConcurrentTransformer.args group
             = [object.BaseTransformer t1; object.BaseTransformer t2]).
Proof.
  split.
  - intros p1 p2. eexists. split; [reflexivity|]. split; reflexivity.
  - intros t1 t2. eexists. split; [reflexivity|]. repeat split; reflexivity.
Qed.

(** C10. [&] on an operand of an unsupported class returns
    [NotImplemented]: a producer given anything but a producer, a
    transformer given neither a transformer nor a passthrough. Nothing
    is raised and no group is made. *)
Theorem and_unsupported_operand (other : object.t ty) :
  (object.isinstance_BaseProducer other = false ->
   forall self : object.producer ty,
     BaseProducer.__and__ self other = NotImplemented)
  /\ (object.isinstance_BaseTransformer other = false ->
      object.isinstance_Passthrough other = false ->
      forall self : object.transformer ty,
        BaseTransformer.__and__ self other = NotImplemented).
Proof.
  split.
  - intros Hp self. destruct other; try reflexivity. discriminate Hp.
  - intros Ht Hpass self.
    destruct other; try reflexivity; discriminate.
Qed.

End grouping.

Lemma passthrough_group_type_contract_witness :
  BaseTransformer.__and__ sample_parser object.Passthrough = Raise TypeError
  /\ BaseTransformer.__rand__ sample_parser object.Passthrough
     = Raise TypeError
  /\ BaseTransformer.__and__ sample_normaliser object.Passthrough
     = Return (SimpleConcurrentTransformer.new ty_str ty_str
                 [object.BaseTransformer sample_normaliser;
                  object.Passthrough]).
Proof.
  split; [|split].
  - apply (proj1 (passthrough_group_type_contract sample_parser)).
    reflexivity.
  - apply (proj1 (proj2 (passthrough_group_type_contract sample_parser))).
    reflexivity.
  - apply (proj2 (proj2 (proj2
             (passthrough_group_type_contract sample_normaliser)))).
    reflexivity.
Defined.

Lemma and_unsupported_operand_witness :
  BaseProducer.__and__ sample_source (object.Other "42") = NotImplemented
  /\ BaseTransformer.__and__ sample_parser (object.Other "42")
     = NotImplemented
  /\ BaseProducer.__and__ sample_source (object.BaseTransformer sample_parser)
     = NotImplemented
  /\ BaseTransformer.__and__ sample_parser (object.BaseProducer sample_source)
     = NotImplemented.
Proof.
  split; [|split; [|split]].
  - apply (proj1 (and_unsupported_operand (object.Other "42"))).
    reflexivity.
  - apply (proj2 (and_unsupported_operand (object.Other "42")));
      reflexivity.
  - apply (proj1 (and_unsupported_operand
                    (object.BaseTransformer sample_parser))).
    reflexivity.
  - apply (proj2 (and_unsupported_operand
                    (object.BaseProducer sample_source)));
      reflexivity.
Defined.

(** ** Pipelines of chained conduits *)

Lemma chain_all_final_conduits (source : Conduit.t)
  (stages : list (bool * Conduit.t)) :
  Conduit.get_final_conduits (chain_all source stages)
  = finals_through (Conduit.get_final_conduits source) stages.
Proof.
  revert source.
  induction stages as [|[has_passthrough processor] rest IH]; intros source.
  - reflexivity.
  - cbn [chain_all finals_through]. rewrite IH. reflexivity.
Qed.

Lemma chain_all_root_connections (source : Conduit.t)
  (stages : list (bool * Conduit.t)) :
  Conduit.get_connections (chain_all source stages) []
  = Conduit.get_connections source []
    ++ edges_through (Conduit.get_final_conduits source) stages.
Proof.
  revert source.
  induction stages as [|[has_passthrough processor] rest IH]; intros source.
  - cbn. rewrite app_nil_r. reflexivity.
  - cbn [chain_all edges_through]. rewrite IH.
    cbn [_ChainedConduit.as_conduit Conduit.get_connections
         Conduit.get_final_conduits].
    unfold _ChainedConduit.get_connections, _ChainedConduit.get_final_conduits.
    cbn [_ChainedConduit.source _ChainedConduit.processor].
    assert (Hin :
      (if Conduit._has_passthrough source
       then Conduit.get_final_conduits source ++ []
       else Conduit.get_final_conduits source)
      = Conduit.get_final_conduits source).
    { destruct (Conduit._has_passthrough source);
        [apply app_nil_r|reflexivity]. }
    cbn zeta. rewrite Hin, <- app_assoc. reflexivity.
Qed.

Lemma finals_through_flags (finals : list SerialConduit)
  (stages1 stages2 : list (bool * Conduit.t)) :
  stages1.*2 = stages2.*2 ->
  finals_through finals stages1 = finals_through finals stages2
  /\ edges_through finals stages1 = edges_through finals stages2.
Proof.
  revert finals stages2.
  induction stages1 as [|[h1 p1] rest1 IH];
    intros finals [|[h2 p2] rest2] Heq; try discriminate Heq.
  - split; reflexivity.
  - cbn in Heq. injection Heq as -> Hrest.
    cbn [finals_through edges_through].
    destruct (IH ((if Conduit._has_passthrough p2 then finals else [])
                  ++ Conduit.get_final_conduits p2) rest2 Hrest)
      as [-> ->].
    split; reflexivity.
Qed.

(** In a flow without ingoing conduits, neither the final conduits nor
    the connections of a pipeline depend on what its intermediate chained
    conduits report as [_has_passthrough]. *)
Theorem pipeline_graph_ignores_chain_flags (source : Conduit.t)
  (stages1 stages2 : list (bool * Conduit.t)) :
  stages1.*2 = stages2.*2 ->
  Conduit.get_final_conduits (chain_all source stages1)
  = Conduit.get_final_conduits (chain_all source stages2)
  /\ Conduit.get_connections (chain_all source stages1) []
     = Conduit.get_connections (chain_all source stages2) [].
Proof.
  intros Heq.
  rewrite !chain_all_final_conduits, !chain_all_root_connections.
  destruct (finals_through_flags (Conduit.get_final_conduits source)
              stages1 stages2 Heq) as [-> ->].
  split; reflexivity.
Qed.

Lemma pipeline_graph_ignores_chain_flags_witness :
  Conduit.get_final_conduits
    (chain_all (AtomicConduit.new "a")
       [(false, AtomicConduit.new "b"); (false, AtomicConduit.new "c")])
  = Conduit.get_final_conduits
      (chain_all (AtomicConduit.new "a")
         [(true, AtomicConduit.new "b"); (true, AtomicConduit.new "c")])
  /\ Conduit.get_connections
       (chain_all (AtomicConduit.new "a")
          [(false, AtomicConduit.new "b"); (false, AtomicConduit.new "c")])
       []
     = Conduit.get_connections
         (chain_all (AtomicConduit.new "a")
            [(true, AtomicConduit.new "b"); (true, AtomicConduit.new "c")])
         [].
Proof.
  apply (pipeline_graph_ignores_chain_flags (AtomicConduit.new "a")
           [(false, AtomicConduit.new "b"); (false, AtomicConduit.new "c")]
           [(true, AtomicConduit.new "b"); (true, AtomicConduit.new "c")]).
  reflexivity.
Defined.

Lemma edges_through_linear (previous : Conduit.t)
  (stages : list (bool * Conduit.t)) :
  Forall (fun stage => Conduit._has_passthrough stage.2 = false) stages ->
  edges_through (Conduit.get_final_conduits previous) stages
  = linear_edges previous stages.*2.
Proof.
  intros Hfree. revert previous.
  induction Hfree as [|[h processor] rest Hp _ IH]; intros previous.
  - reflexivity.
  - cbn in Hp. cbn [edges_through linear_edges fmap list_fmap snd].
    rewrite Hp. cbn [app]. rewrite IH. reflexivity.
Qed.

(** In a flow without ingoing conduits, the connections of a pipeline of
    passthrough-free stages are the source's own connections followed,
    stage by stage, by the connections of each processor fed by the final
    conduits of the stage just before it. *)
Theorem linear_pipeline_connections (source : Conduit.t)
  (stages : list (bool * Conduit.t)) :
  Forall (fun stage => Conduit._has_passthrough stage.2 = false) stages ->
  Conduit.get_connections (chain_all source stages) []
  = Conduit.get_connections source [] ++ linear_edges source stages.*2.
Proof.
  intros Hfree.
  rewrite chain_all_root_connections, (edges_through_linear _ _ Hfree).
  reflexivity.
Qed.

Lemma linear_pipeline_connections_witness :
  Conduit.get_connections
    (chain_all (AtomicConduit.new "a")
       [(false, AtomicConduit.new "b"); (false, AtomicConduit.new "c")])
    []
  = [("a", "b"); ("b", "c")].
Proof.
  apply (linear_pipeline_connections (AtomicConduit.new "a")
           [(false, AtomicConduit.new "b"); (false, AtomicConduit.new "c")]).
  repeat constructor.
Defined.

(** When every processor of a pipeline holds a passthrough, every final
    conduit stays final: the pipeline's final conduits are those of the
    source followed by those of each processor in turn. *)
Theorem passthrough_pipeline_final_conduits (source : Conduit.t)
  (stages : list (bool * Conduit.t)) :
  Forall (fun stage => Conduit._has_passthrough stage.2 = true) stages ->
  Conduit.get_final_conduits (chain_all source stages)
  = Conduit.get_final_conduits source
    ++ (stages.*2 ≫= Conduit.get_final_conduits).
Proof.
  intros Hall. rewrite chain_all_final_conduits.
  generalize (Conduit.get_final_conduits source) as finals.
  induction Hall as [|[h processor] rest Hp _ IH]; intros finals.
  - cbn. rewrite app_nil_r. reflexivity.
  - cbn in Hp. cbn [finals_through]. rewrite Hp, IH.
    cbn [fmap list_fmap snd]. rewrite bind_cons, <- !app_assoc.
    reflexivity.
Qed.

Lemma passthrough_pipeline_final_conduits_witness :
  Conduit.get_final_conduits
    (chain_all (AtomicConduit.new "a")
       [(true, ConcurrentConduit.new
                 [ConcurrentConduit.Stage (AtomicConduit.new "b");
                  ConcurrentConduit.Passthrough]);
        (true, ConcurrentConduit.new
                 [ConcurrentConduit.Passthrough;
                  ConcurrentConduit.Stage (AtomicConduit.new "c")])])
  = ["a"; "b"; "c"].
Proof.
  apply (passthrough_pipeline_final_conduits (AtomicConduit.new "a")
           [(true, ConcurrentConduit.new
                     [ConcurrentConduit.Stage (AtomicConduit.new "b");
                      ConcurrentConduit.Passthrough]);
            (true, ConcurrentConduit.new
                     [ConcurrentConduit.Passthrough;
                      ConcurrentConduit.Stage (AtomicConduit.new "c")])]).
  repeat constructor.
Defined.

Lemma chain_serial_chained_conduits (source : SerialSource.t)
  (finals : list SerialConduit) :
  SerialSource.chained_conduits (chain_serial source finals)
  = SerialSource.chained_conduits source ++ finals.
Proof.
  revert source. induction finals as [|final rest IH]; intros source.
  - cbn. rewrite app_nil_r. reflexivity.
  - cbn [chain_serial]. rewrite IH.
    cbn. unfold _SerialChainedConduit.chained_conduits. cbn.
    rewrite <- app_assoc. reflexivity.
Qed.

Lemma chain_serial_final_conduit (source : SerialSource.t)
  (finals : list SerialConduit) :
  SerialSource.final_conduit (chain_serial source finals)
  = default (SerialSource.final_conduit source) (last finals).
Proof.
  revert source. induction finals as [|final rest IH]; intros source.
  - reflexivity.
  - cbn [chain_serial]. rewrite IH.
    destruct rest as [|next rest']; [reflexivity|].
    change (last (final :: next :: rest')) with (last (next :: rest')).
    destruct (last (next :: rest')) eqn:Hlast; [reflexivity|].
    apply last_None in Hlast. discriminate Hlast.
Qed.

(** The chained conduits of a serial chain are those of its source
    followed by the final conduit of every stage chained onto it, in
    chaining order; with at least one stage, the sequence ends with the
    final conduit of the chain. *)
Theorem serial_chain_lists_stages_in_order (source : SerialSource.t)
  (finals : list SerialConduit) :
  SerialSource.chained_conduits (chain_serial source finals)
  = SerialSource.chained_conduits source ++ finals
  /\ (finals <> [] ->
      last (SerialSource.chained_conduits (chain_serial source finals))
      = Some (SerialSource.final_conduit (chain_serial source finals))).
Proof.
  split; [apply chain_serial_chained_conduits|].
  intros Hne.
  rewrite chain_serial_chained_conduits, chain_serial_final_conduit.
  destruct (last finals) as [final|] eqn:Hlast.
  - apply last_Some in Hlast as [front ->].
    rewrite app_assoc. apply last_snoc.
  - apply last_None in Hlast. contradiction.
Qed.

Lemma serial_chain_lists_stages_in_order_witness :
  last (SerialSource.chained_conduits
          (chain_serial (SerialSource.new ["p"] "p") ["t1"; "t2"]))
  = Some (SerialSource.final_conduit
            (chain_serial (SerialSource.new ["p"] "p") ["t1"; "t2"])).
Proof.
  apply (proj2 (serial_chain_lists_stages_in_order
                  (SerialSource.new ["p"] "p") ["t1"; "t2"])).
  discriminate.
Defined.

(** ** The chaining operator [>>] *)



(** A producer declines a transformer as right operand, so
    [producer >> transformer] is built by the transformer's reflected
    method: a [_ChainedProducer] when both are serial, a
    [_ChainedConcurrentTransformedProducer] for a serial producer and a
    group transformer, a [_ChainedConcurrentProducer] for a group
    producer. *)
Theorem producer_chain_by_reflected_method (producer transformer : pyobject.t) :
  pyobject.isinstance_BaseProducer producer = true ->
  pyobject.isinstance_BaseTransformer transformer = true ->
  Chaining.__rshift__ producer transformer = Some NotImplemented
  /\ Chaining.rshift producer transformer
     = Some (Return
               (if pyobject.isinstance_SerialProducer producer
                then if pyobject.isinstance_SerialTransformer transformer
                     then chained._ChainedProducer producer transformer
                     else chained._ChainedConcurrentTransformedProducer
                            producer transformer
                else chained._ChainedConcurrentProducer
                       producer transformer)).
Proof.
  intros Hp Ht.
  destruct producer; try discriminate Hp;
    destruct transformer; try discriminate Ht; split; reflexivity.
Qed.

Lemma producer_chain_by_reflected_method_witness :
  Chaining.rshift (pyobject.GroupProducer "sources")
                  (pyobject.SerialTransformer "parse")
  = Some (Return (chained._ChainedConcurrentProducer
                    (pyobject.GroupProducer "sources")
                    (pyobject.SerialTransformer "parse"))).
Proof.
  apply (proj2 (producer_chain_by_reflected_method
                  (pyobject.GroupProducer "sources")
                  (pyobject.SerialTransformer "parse")
                  eq_refl eq_refl)).
Defined.

(** Capping a producer with a consumer gives a [_ProducerFlow] for a
    serial producer and a [_ProducerGroupFlow] for any other producer. *)
Theorem producer_flow_kind (producer consumer : pyobject.t) :
  pyobject.isinstance_BaseProducer producer = true ->
  pyobject.isinstance_Consumer consumer = true ->
  Chaining.rshift producer consumer
  = Some (Return
            (if pyobject.isinstance_SerialProducer producer
             then chained._ProducerFlow producer consumer
             else chained._ProducerGroupFlow producer consumer)).
Proof.
  intros Hp Hc.
  destruct producer; try discriminate Hp;
    destruct consumer; try discriminate Hc; reflexivity.
Qed.

Lemma producer_flow_kind_witness :
  Chaining.rshift (pyobject.SerialProducer "numbers")
                  (pyobject.Consumer "sum")
  = Some (Return (chained._ProducerFlow (pyobject.SerialProducer "numbers")
                                        (pyobject.Consumer "sum"))).
Proof.
  apply (producer_flow_kind (pyobject.SerialProducer "numbers")
                            (pyobject.Consumer "sum"));
    reflexivity.
Defined.



(** ** Groups with a passthrough *)

Section passthrough_groups.
Context {ty : Type} `{TypeLattice ty}.

(** Every group that [&] returns for a transformer and a passthrough, in
    either operand order, has the transformer's own types, and its input
    type is a subtype of its product type. *)
Theorem passthrough_group_satisfies_contract
  (T : object.transformer ty) (group : SimpleConcurrentTransformer.t ty) :
  BaseTransformer.__and__ T object.Passthrough = Return group
  \/ BaseTransformer.__rand__ T object.Passthrough = Return group ->
  SimpleConcurrentTransformer.input_type group
  = object.transformer_input_type T
  /\ SimpleConcurrentTransformer.product_type group
     = object.transformer_product_type T
  /\ issubclass_generic (SimpleConcurrentTransformer.input_type group)
                        (SimpleConcurrentTransformer.product_type group)
     = true.
Proof.
  rewrite and_passthrough, rand_passthrough.
  destruct (issubclass_generic (object.transformer_input_type T)
                               (object.transformer_product_type T))
    eqn:Hvalid.
  - intros [Hg|Hg]; injection Hg as <-; cbn; auto.
  - intros [Hg|Hg]; discriminate Hg.
Qed.

(** The two operand orders of [&] with a passthrough agree: both raise
    [TypeError], or both return a group of the same types whose members
    are listed in the order of the operands. *)
Theorem passthrough_group_orders_agree (T : object.transformer ty) :
  (BaseTransformer.__and__ T object.Passthrough = Raise TypeError
   /\ BaseTransformer.__rand__ T object.Passthrough = Raise TypeError)
  \/ (exists left right,
        BaseTransformer.__and__ T object.Passthrough = Return left
        /\ BaseTransformer.__rand__ T object.Passthrough = Return right
        /\ SimpleConcurrentTransformer.input_type left
           = SimpleConcurrentTransformer.input_type right
        /\ SimpleConcurrentTransformer.product_type left
           = SimpleConcurrentTransformer.product_type right
        /\ SimpleConcurrentTransformer.args left
           = [object.BaseTransformer T; object.Passthrough]
        /\ SimpleConcurrentTransformer.args right
           = [object.Passthrough; object.BaseTransformer T]).
Proof.
  rewrite and_passthrough, rand_passthrough.
  destruct (issubclass_generic _ _).
  - right. do 2 eexists. repeat split; reflexivity.
  - left. split; reflexivity.
Qed.

(** The reflected [&] of a transformer serves a passthrough only: for
    every other left operand, another transformer included, it returns
    [NotImplemented]. *)
Theorem rand_serves_passthrough_only
  (self : object.transformer ty) (other : object.t ty) :
  object.isinstance_Passthrough other = false ->
  BaseTransformer.__rand__ self other = NotImplemented.
Proof.
  intros Hother. destruct other; try reflexivity. discriminate Hother.
Qed.

End passthrough_groups.

Lemma passthrough_group_satisfies_contract_witness :
  issubclass_generic
    (SimpleConcurrentTransformer.input_type
       (SimpleConcurrentTransformer.new ty_str ty_str
          [object.BaseTransformer sample_normaliser; object.Passthrough]))
    (SimpleConcurrentTransformer.product_type
       (SimpleConcurrentTransformer.new ty_str ty_str
          [object.BaseTransformer sample_normaliser; object.Passthrough]))
  = true.
Proof.
  apply (passthrough_group_satisfies_contract sample_normaliser
           (SimpleConcurrentTransformer.new ty_str ty_str
              [object.BaseTransformer sample_normaliser;
               object.Passthrough])).
  left. reflexivity.
Defined.

Lemma rand_serves_passthrough_only_witness :
  BaseTransformer.__rand__ sample_parser
    (object.BaseTransformer sample_normaliser)
  = NotImplemented.
Proof.
  apply (rand_serves_passthrough_only sample_parser
           (object.BaseTransformer sample_normaliser)).
  reflexivity.
Defined.

(** ** Items through a serial transformer *)

(** [process] neither drops nor invents items: an item comes out exactly
    when [transform] yields it for some upstream item. *)
Theorem process_yields_exactly_the_transformed_items {S A B}
  (self : SerialTransformer.t A B) (input : Iter.Iterable S A)
  (store : gmap nat (list S)) (product : B) :
  product ∈ (SerialTransformer.process self input store).1
  <-> exists source_product,
        source_product ∈ (input store).1
        /\ product ∈ SerialTransformer.transform self source_product.
Proof.
  unfold SerialTransformer.process. run_monad.
  rewrite process_loop_flatten, list_elem_of_bind.
  split; intros (x & H1 & H2); exists x; auto.
Qed.

(** The number of items [process] yields is the sum of the numbers
    [transform] yields per upstream item; so it yields nothing exactly
    when [transform] yields nothing for every upstream item, the empty
    input included. *)
Theorem process_output_size {A B}
  (self : SerialTransformer.t A B) (input : list A) :
  length (SerialTransformer.process_loop self input)
  = sum_list_with (fun x => length (SerialTransformer.transform self x)) input
  /\ (SerialTransformer.process_loop self input = []
      <-> Forall (fun x => SerialTransformer.transform self x = []) input).
Proof.
  split.
  - induction input as [|x rest IH]; [reflexivity|].
    cbn [SerialTransformer.process_loop sum_list_with].
    rewrite length_app, IH. reflexivity.
  - induction input as [|x rest IH].
    + split; [constructor|reflexivity].
    + cbn [SerialTransformer.process_loop]. split.
      * intros [Hx Hrest]%app_eq_nil. constructor; [exact Hx|].
        apply IH, Hrest.
      * intros Hall. inversion Hall as [|? ? Hx Hrest]; subst.
        rewrite Hx. apply IH, Hrest.
Qed.

Lemma process_output_size_witness :
  SerialTransformer.process_loop
    (SerialTransformer.new (fun x : nat => if Nat.even x then [] else [x]))
    [0; 2; 4]
  = [].
Proof.
  apply (proj2 (proj2 (process_output_size
                         (SerialTransformer.new
                            (fun x : nat => if Nat.even x then [] else [x]))
                         [0; 2; 4]))).
  repeat constructor.
Defined.

(** Feeding the output of one [process] into another is one [process]
    with the two [transform]s composed: every product of the first is
    expanded by the second, in place. *)
Theorem process_composes {S A B C}
  (first : SerialTransformer.t A B) (second : SerialTransformer.t B C)
  (input : Iter.Iterable S A) (store : gmap nat (list S)) :
  SerialTransformer.process second
    (SerialTransformer.process first input) store
  = SerialTransformer.process
      (SerialTransformer.new
         (fun source_product =>
            SerialTransformer.transform first source_product
            ≫= SerialTransformer.transform second))
      input store.
Proof.
  unfold SerialTransformer.process. run_monad.
  f_equal. generalize (input store).1 as products.
  induction products as [|product rest IH]; [reflexivity|].
  cbn [SerialTransformer.process_loop SerialTransformer.transform].
  rewrite process_loop_app, IH, process_loop_flatten. reflexivity.
Qed.

(** [process] uses up a one-shot iterator: once any transformer has
    processed it, processing it again yields nothing, while a collection
    can be processed again with the same result. *)
Theorem process_exhausts_iterators {A B C}
  (first : SerialTransformer.t A B) (second : SerialTransformer.t A C)
  (ref : nat) (items : list A) (store : gmap nat (list A)) :
  (SerialTransformer.process second (Iter.Iterator ref)
     (SerialTransformer.process first (Iter.Iterator ref) store).2).1 = []
  /\ (SerialTransformer.process second (Iter.Collection items)
        (SerialTransformer.process first (Iter.Collection items) store).2)
     = (SerialTransformer.process_loop second items, store).
Proof.
  unfold SerialTransformer.process. split.
  - run_monad. rewrite iterator_drained. reflexivity.
  - reflexivity.
Qed.

(** ** Items out of a concurrent producer *)

Lemma produce_from_app {S A} (front back : list (SerialProducer.t S A))
  (store : gmap nat (list S)) :
  ConcurrentProducer.produce_from (front ++ back) store
  = ((ConcurrentProducer.produce_from front store).1
     ++ (ConcurrentProducer.produce_from back
           (ConcurrentProducer.produce_from front store).2).1,
     (ConcurrentProducer.produce_from back
        (ConcurrentProducer.produce_from front store).2).2).
Proof.
  revert store. induction front as [|producer rest IH]; intros store.
  - cbn. destruct (ConcurrentProducer.produce_from back store). reflexivity.
  - cbn [app ConcurrentProducer.produce_from]. run_monad.
    rewrite IH. cbn [fst snd]. rewrite app_assoc. reflexivity.
Qed.

(** Producing from a group is producing from its front members and then,
    in the store they leave behind, from the members after them: the two
    outputs follow each other. *)
Theorem concurrent_produce_splits {S A}
  (front back : list (SerialProducer.t S A)) (store : gmap nat (list S)) :
  let whole := ConcurrentProducer.new (front ++ back) in
  let first := ConcurrentProducer.produce (ConcurrentProducer.new front) store in
  let second :=
    ConcurrentProducer.produce (ConcurrentProducer.new back) first.2 in
  ConcurrentProducer.produce whole store
  = (first.1 ++ second.1, second.2).
Proof. apply produce_from_app. Qed.

(** A serial producer is a group of one: producing from what its
    [iter_concurrent_producers] yields is its own [produce]. *)
Theorem serial_producer_is_one_member_group {S A}
  (producer : SerialProducer.t S A) (store : gmap nat (list S)) :
  ConcurrentProducer.produce
    (ConcurrentProducer.new
       (SerialProducer.iter_concurrent_producers producer))
    store
  = SerialProducer.produce producer store.
Proof.
  unfold ConcurrentProducer.produce, SerialProducer.iter_concurrent_producers.
  cbn [ConcurrentProducer.iter_concurrent_producers
       ConcurrentProducer.produce_from].
  unfold SerialProducer.__iter__. run_monad.
  rewrite app_nil_r.
  destruct (SerialProducer.produce producer store). reflexivity.
Qed.

(** A group neither drops nor invents items: an item comes out exactly
    when it is in the sequence of one of the members, and the output is
    as long as the members' sequences together. *)
Theorem concurrent_produce_keeps_all_items {S A}
  (self : ConcurrentProducer.t S A) (store : gmap nat (list S)) :
  let sequences :=
    (member_sequences (ConcurrentProducer.iter_concurrent_producers self)
                      store).1 in
  (forall product,
     product ∈ (ConcurrentProducer.produce self store).1
     <-> exists sequence, sequence ∈ sequences /\ product ∈ sequence)
  /\ length (ConcurrentProducer.produce self store).1
     = sum_list_with length sequences.
Proof.
  cbn zeta. unfold ConcurrentProducer.produce.
  rewrite produce_from_sequences. cbn [fst].
  generalize (member_sequences
                (ConcurrentProducer.iter_concurrent_producers self) store).1
    as sequences.
  intros sequences. split.
  - intros product.
    induction sequences as [|sequence rest IH]; cbn [concat].
    + split; [intros Hin; inversion Hin|].
      intros (sequence & Hin & _). inversion Hin.
    + rewrite elem_of_app, IH. split.
      * intros [Hin|(other & Hother & Hin)].
        -- exists sequence. split; [left|exact Hin].
        -- exists other. split; [right; exact Hother|exact Hin].
      * intros (other & Hother & Hin).
        apply elem_of_cons in Hother as [->|Hother]; [left; exact Hin|].
        right. exists other. split; assumption.
  - induction sequences as [|sequence rest IH]; [reflexivity|].
    cbn [concat sum_list_with]. rewrite length_app, IH. reflexivity.
Qed.

(** The default asynchronous variants never suspend: they hand over the
    synchronous items one after the other. *)
Theorem default_async_never_suspends {S A B}
  (producer : SerialProducer.t S A) (transformer : SerialTransformer.t A B)
  (source_product : A) (store : gmap nat (list S)) :
  async_suspensions (SerialProducer.aproduce producer store).1 = 0
  /\ async_suspensions
       (SerialTransformer.atransform transformer source_product) = 0.
Proof.
  unfold SerialProducer.aproduce, SerialTransformer.atransform.
  run_monad. split; apply async_replay_never_suspends.
Qed.
